(** * easyrest: a shallow embedding of [api.go] (generic CRUD routes for Fiber)

    The handlers of [api.go] are modelled as computations in a small writer
    monad that records every call the handler makes to a caller-supplied
    function ([Find], [Validator], [Create], ...). A nil Go function value is
    [None]; calling through it is a [Panic]. The Fiber context supplies the
    route parameter [id] and the result of [c.BodyParser]. *)

From Stdlib Require Import String Ascii ZArith List Bool Lia.
Import ListNotations.
Local Open Scope string_scope.

(** Go's [error]: only its message matters for logging, never for responses. *)
Definition error := string.

(** ** strconv.ParseInt(s, 10, 64) *)

Inductive NumErr := ErrSyntax | ErrRange.

Definition maxUint64 : Z := (2 ^ 64 - 1)%Z.

(** [cutoff = maxUint64/10 + 1] for base 10. *)
Definition cutoff10 : Z := (maxUint64 / 10 + 1)%Z.

(** [lower(c) = c | ('x' - 'X')] *)
Definition lower (c : Z) : Z := Z.lor c 32.

(** The digit loop of [ParseUint] for base 10, bitSize 64, [base0 = false];
    [n] is the uint64 accumulator. *)
Fixpoint parseUint_loop (n : Z) (s : list ascii) : Z * option NumErr :=
  match s with
  | [] => (n, None)
  | c :: rest =>
      let cz := Z.of_nat (nat_of_ascii c) in
      let dopt :=
        if ((48 <=? cz) && (cz <=? 57))%Z then Some (cz - 48)%Z
        else if ((97 <=? lower cz) && (lower cz <=? 122))%Z
             then Some (lower cz - 97 + 10)%Z
             else None in
      match dopt with
      | None => (0%Z, Some ErrSyntax)
      | Some d =>
          if (d >=? 10)%Z then (0%Z, Some ErrSyntax)
          else if (n >=? cutoff10)%Z then (maxUint64, Some ErrRange)
          else
            let n := (n * 10)%Z in
            let n1 := ((n + d) mod 2 ^ 64)%Z in
            if ((n1 <? n) || (n1 >? maxUint64))%Z then (maxUint64, Some ErrRange)
            else parseUint_loop n1 rest
      end
  end.

Definition ParseUint (s : list ascii) : Z * option NumErr :=
  match s with
  | [] => (0%Z, Some ErrSyntax)
  | _ => parseUint_loop 0 s
  end.

Definition ParseInt (str : string) : Z * option NumErr :=
  match list_ascii_of_string str with
  | [] => (0%Z, Some ErrSyntax)
  | c0 :: rest0 =>
      let '(neg, s) :=
        if Ascii.eqb c0 "+"%char then (false, rest0)
        else if Ascii.eqb c0 "-"%char then (true, rest0)
        else (false, c0 :: rest0) in
      let (un, err) := ParseUint s in
      match err with
      | Some ErrSyntax => (0%Z, err)
      | _ =>
          if negb neg && (un >=? 2 ^ 63)%Z then ((2 ^ 63 - 1)%Z, Some ErrRange)
          else if neg && (un >? 2 ^ 63)%Z then ((- 2 ^ 63)%Z, Some ErrRange)
          else ((if neg then - un else un)%Z, None)
      end
  end.

(** ** Data model *)

Inductive Action := ActionGetAll | ActionGetOne | ActionMutate | ActionCreate | ActionDelete.

(** The part of [*fiber.Ctx] the handlers read: the [:id] route parameter
    and the outcome of [c.BodyParser] into [D] ([None]: decoding failed). *)
Record Ctx {D : Type} := mkCtx {
  Param_id : string;
  Body_parsed : option D
}.

Record SubEntity {T Any : Type} := mkSubEntity {
  SubPath : string;
  Get : T -> list Any
}.

(** [Api[T, D]]; [Any] is Go's [any] of sub-entity lists and [Page] the
    generic [Page[T]] of the paginator. [Find] returns [(T, bool)] in Go. *)
Record Api {T D Any : Type} {Page : Type -> Type} := mkApi {
  Path : string;
  Find : string -> option T;
  FindAllPage : Z -> Page T;
  FindAll : unit -> list T;
  Search : option (D -> list T);
  Mutate : option (T -> D -> T * option error);
  Create : option (D -> T * option error);
  Delete : option (T -> T * option error);
  SubEntities : list (@SubEntity T Any);
  Dto : T -> D;
  Validator : option (@Ctx D -> Action -> list T -> bool)
}.

(** Response bodies by the Fiber call that writes them. *)
Inductive Body {T D Any : Type} {Page : Type -> Type} :=
| BStatusText (s : string)      (* c.SendStatus: the status message *)
| BText (s : string)            (* c.SendString *)
| BJsonDto (d : D)              (* c.JSON of a D *)
| BJsonDtos (ds : list D)       (* c.JSON of a []D *)
| BJsonPage (p : Page T)        (* c.JSON of a Page[T] *)
| BJsonAnys (xs : list Any).    (* c.JSON of a []any *)

Record Response {T D Any : Type} {Page : Type -> Type} := mkResponse {
  Status : Z;
  RespBody : @Body T D Any Page
}.

Inductive Outcome {T D Any : Type} {Page : Type -> Type} :=
| Respond (r : @Response T D Any Page)
| Panic (msg : string).

(** Calls a handler makes to the functions of the [Api]. *)
Inductive Event {T D : Type} :=
| EFind (key : string)
| EValidate (a : Action) (items : list T)
| EParseBody
| EFindAll
| EFindAllPage (id : Z)
| ESearch (filter : D)
| ECreate (d : D)
| EMutate (item : T) (d : D)
| EDelete (item : T)
| ESubGet (item : T).

Definition status_message (code : Z) : string :=
  match code with
  | 200%Z => "OK"
  | 400%Z => "Bad Request"
  | 401%Z => "Unauthorized"
  | 404%Z => "Not Found"
  | 500%Z => "Internal Server Error"
  | _ => ""
  end.

Arguments mkCtx {D}.
Arguments mkSubEntity {T Any}.
Arguments mkApi {T D Any Page}.
Arguments mkResponse {T D Any Page}.

Inductive Method := MGet | MPost | MPut | MDelete.

Definition Method_eqb (m1 m2 : Method) : bool :=
  match m1, m2 with
  | MGet, MGet | MPost, MPost | MPut, MPut | MDelete, MDelete => true
  | _, _ => false
  end.

Inductive Handler {T Any : Type} :=
| HGetAll | HGetAllPage | HCreate | HSearch
| HSub (getter : T -> list Any)
| HGetOne | HMutate | HDelete.

Record Route {T Any : Type} := mkRoute {
  RMethod : Method;
  RPath : string;
  RHandler : @Handler T Any
}.

Arguments mkRoute {T Any}.

Section Handlers.

Context {T D Any : Type} {Page : Type -> Type}.

Local Abbreviation Api := (@Api T D Any Page).
Local Abbreviation Ctx := (@Ctx D).
Local Abbreviation Outcome := (@Outcome T D Any Page).
Local Abbreviation Event := (@Event T D).

(** A handler run: the calls it made, in order, and its outcome. *)
Definition M (A : Type) : Type := (list Event * A)%type.

Definition ret {A} (a : A) : M A := ([], a).

Definition bind {A B} (m : M A) (k : A -> M B) : M B :=
  let (t1, a) := m in
  let (t2, b) := k a in
  (app t1 t2, b).

Definition emit (e : Event) : M unit := ([e], tt).

Local Notation "x <- m ;; k" := (bind m (fun x => k))
  (at level 61, m at next level, right associativity).
Local Notation "m ;;; k" := (bind m (fun _ => k))
  (at level 61, right associativity).

Definition sendStatus (code : Z) : Outcome :=
  Respond (mkResponse code (BStatusText (status_message code))).

Definition sendJSON (b : @Body T D Any Page) : Outcome :=
  Respond (mkResponse 200 b).

Definition sendString (s : string) : Outcome :=
  Respond (mkResponse 200 (BText s)).

Definition nil_func_panic : Outcome :=
  Panic "runtime error: invalid memory address or nil pointer dereference".

(** [api.Validator != nil && !api.Validator(c, action, items...)] *)
Definition denied (api : Api) (c : Ctx) (a : Action) (items : list T) : M bool :=
  match Validator api with
  | None => ret false
  | Some v => emit (EValidate a items) ;;; ret (negb (v c a items))
  end.

(** [item, ok := api.Find(id)] *)
Definition find (api : Api) (key : string) : M (option T) :=
  emit (EFind key) ;;; ret (Find api key).

(** [c.BodyParser(&x)] *)
Definition bodyParser (c : Ctx) : M (option D) :=
  emit EParseBody ;;; ret (Body_parsed c).

(** Calls through the optional functions: [None] when the Go value is nil. *)
Definition call_search (api : Api) (filter : D) : M (option (list T)) :=
  emit (ESearch filter) ;;; ret (option_map (fun f => f filter) (Search api)).

Definition call_create (api : Api) (d : D) : M (option (T * option error)) :=
  emit (ECreate d) ;;; ret (option_map (fun f => f d) (Create api)).

Definition call_mutate (api : Api) (item : T) (d : D) : M (option (T * option error)) :=
  emit (EMutate item d) ;;; ret (option_map (fun f => f item d) (Mutate api)).

Definition call_delete (api : Api) (item : T) : M (option (T * option error)) :=
  emit (EDelete item) ;;; ret (option_map (fun f => f item) (Delete api)).

Definition getAll (api : Api) (c : Ctx) : M Outcome :=
  d <- denied api c ActionGetAll [] ;;
  if d then ret (sendStatus 401) else
  emit EFindAll ;;;
  ret (sendJSON (BJsonDtos (map (Dto api) (FindAll api tt)))).

Definition getAllPage (api : Api) (c : Ctx) : M Outcome :=
  let (i, _) := ParseInt (Param_id c) in
  d <- denied api c ActionGetAll [] ;;
  if d then ret (sendStatus 401) else
  emit (EFindAllPage i) ;;;
  ret (sendJSON (BJsonPage (FindAllPage api i))).

Definition search (api : Api) (c : Ctx) : M Outcome :=
  d <- denied api c ActionGetAll [] ;;
  if d then ret (sendStatus 401) else
  b <- bodyParser c ;;
  match b with
  | None => ret (sendStatus 400)
  | Some filter =>
      r <- call_search api filter ;;
      match r with
      | None => ret nil_func_panic
      | Some found => ret (sendJSON (BJsonDtos (map (Dto api) found)))
      end
  end.

Definition getOne (api : Api) (c : Ctx) : M Outcome :=
  o <- find api (Param_id c) ;;
  match o with
  | None =>
      d <- denied api c ActionGetOne [] ;;
      if d then ret (sendStatus 401) else ret (sendStatus 404)
  | Some item =>
      d <- denied api c ActionGetOne [item] ;;
      if d then ret (sendStatus 401) else
      ret (sendJSON (BJsonDto (Dto api item)))
  end.

Definition createOne (api : Api) (c : Ctx) : M Outcome :=
  b <- bodyParser c ;;
  match b with
  | None => ret (sendStatus 400)
  | Some amended =>
      d <- denied api c ActionCreate [] ;;
      if d then ret (sendStatus 401) else
      r <- call_create api amended ;;
      match r with
      | None => ret nil_func_panic
      | Some (_, Some _) => ret (sendStatus 500)
      | Some (item, None) => ret (sendJSON (BJsonDto (Dto api item)))
      end
  end.

Definition mutateOne (api : Api) (c : Ctx) : M Outcome :=
  b <- bodyParser c ;;
  match b with
  | None => ret (sendStatus 400)
  | Some amended =>
      o <- find api (Param_id c) ;;
      match o with
      | None =>
          d <- denied api c ActionMutate [] ;;
          if d then ret (sendStatus 401) else ret (sendStatus 404)
      | Some item =>
          d <- denied api c ActionMutate [item] ;;
          if d then ret (sendStatus 401) else
          r <- call_mutate api item amended ;;
          match r with
          | None => ret nil_func_panic
          | Some (_, Some _) => ret (sendStatus 500)
          | Some (item', None) => ret (sendJSON (BJsonDto (Dto api item')))
          end
      end
  end.

Definition deleteOne (api : Api) (c : Ctx) : M Outcome :=
  o <- find api (Param_id c) ;;
  match o with
  | None =>
      d <- denied api c ActionDelete [] ;;
      if d then ret (sendStatus 401) else ret (sendStatus 404)
  | Some item =>
      d <- denied api c ActionDelete [item] ;;
      if d then ret (sendStatus 401) else
      r <- call_delete api item ;;
      match r with
      | None => ret nil_func_panic
      | Some (_, Some _) => ret (sendStatus 500)
      | Some (_, None) => ret (sendString "deleted")
      end
  end.

Definition getSubEntity (api : Api) (getter : T -> list Any) (c : Ctx) : M Outcome :=
  o <- find api (Param_id c) ;;
  match o with
  | None =>
      d <- denied api c ActionGetOne [] ;;
      if d then ret (sendStatus 401) else ret (sendStatus 404)
  | Some item =>
      d <- denied api c ActionGetOne [item] ;;
      if d then ret (sendStatus 401) else
      emit (ESubGet item) ;;;
      ret (sendJSON (BJsonAnys (getter item)))
  end.

(** [RegisterAPI]: the routes in registration order, under the group
    ["/" + Path]. *)
Definition RegisterAPI (api : Api) : list (@Route T Any) :=
  let generic := "/" ++ Path api in
  let route m p h := mkRoute m (generic ++ p) h in
  app [route MGet "/" HGetAll; route MGet "/page/:id" HGetAllPage]
  (app (if Mutate api then [route MPost "/" HCreate] else [])
  (app (if Search api then [route MPost "/filter" HSearch] else [])
  (app (map (fun s => route MGet ("/:id/" ++ SubPath s) (HSub (Get s))) (SubEntities api))
  (app [route MGet "/:id" HGetOne]
  (app (if Mutate api then [route MPut "/:id" HMutate] else [])
       (if Delete api then [route MDelete "/:id" HDelete] else [])))))).

(** The handler a registered route runs. *)
Definition handle (api : Api) (h : @Handler T Any) (c : Ctx) : M Outcome :=
  match h with
  | HGetAll => getAll api c
  | HGetAllPage => getAllPage api c
  | HCreate => createOne api c
  | HSearch => search api c
  | HSub g => getSubEntity api g c
  | HGetOne => getOne api c
  | HMutate => mutateOne api c
  | HDelete => deleteOne api c
  end.

End Handlers.

(** ** Observations on handler runs *)

(** [f != nil] for an optional function field. *)
Definition non_nil {A : Type} (o : option A) : bool :=
  match o with Some _ => true | None => false end.

Section Observations.

Context {T D Any : Type} {Page : Type -> Type}.

Local Abbreviation Api := (@Api T D Any Page).
Local Abbreviation Ctx := (@Ctx D).
Local Abbreviation Event := (@Event T D).

(** The verdict of the authorization predicate as the handlers test it. *)
Definition denies (api : Api) (c : Ctx) (a : Action) (items : list T) : bool :=
  match Validator api with
  | None => false
  | Some v => negb (v c a items)
  end.

(** The invocations of the authorization predicate in a run. *)
Fixpoint validator_calls (tr : list Event) : list (Action * list T) :=
  match tr with
  | [] => []
  | EValidate a items :: rest => (a, items) :: validator_calls rest
  | _ :: rest => validator_calls rest
  end.

(** Calls of a run that act on or read entity data after the checkpoint. *)
Definition is_effect (e : Event) : bool :=
  match e with
  | EFindAll | EFindAllPage _ | ESearch _ | ECreate _
  | EMutate _ _ | EDelete _ | ESubGet _ => true
  | _ => false
  end.

(** The handlers that address one item by its key. *)
Inductive Keyed :=
| KGetOne | KMutate | KDelete
| KSub (getter : T -> list Any).

Definition keyed_handler (k : Keyed) : @Handler T Any :=
  match k with
  | KGetOne => HGetOne
  | KMutate => HMutate
  | KDelete => HDelete
  | KSub g => HSub g
  end.

Definition keyed_action (k : Keyed) : Action :=
  match k with
  | KGetOne | KSub _ => ActionGetOne
  | KMutate => ActionMutate
  | KDelete => ActionDelete
  end.

(** What "proceeding to the operation's effect" is for each keyed handler. *)
Definition effect_reached (api : Api) (k : Keyed) (c : Ctx) (item : T)
    (tr : list Event) (out : @Outcome T D Any Page) : Prop :=
  match k with
  | KGetOne => out = sendJSON (BJsonDto (Dto api item))
  | KMutate => exists d, Body_parsed c = Some d /\ In (EMutate item d) tr
  | KDelete => In (EDelete item) tr
  | KSub g => In (ESubGet item) tr /\ out = sendJSON (BJsonAnys (g item))
  end.

(** Whether [RegisterAPI] registers [method] on the path [rel] under the
    resource's group ["/" + Path]. *)
Definition has_route (api : Api) (m : Method) (rel : string) : bool :=
  existsb (fun r => Method_eqb (RMethod r) m && String.eqb (RPath r) (("/" ++ Path api) ++ rel))
    (RegisterAPI api).

(** The paths of the sub-entity routes, in registration order. *)
Fixpoint sub_route_paths (rs : list (@Route T Any)) : list string :=
  match rs with
  | [] => []
  | r :: rest =>
      match RHandler r with
      | HSub _ => RPath r :: sub_route_paths rest
      | _ => sub_route_paths rest
      end
  end.

End Observations.

Arguments Keyed {T Any}.
Arguments KGetOne {T Any}.
Arguments KMutate {T Any}.
Arguments KDelete {T Any}.

(** ** Properties *)

Section Properties.

Context {T D Any : Type} {Page : Type -> Type}.

Local Abbreviation Api := (@Api T D Any Page).
Local Abbreviation Ctx := (@Ctx D).

(** C1. For every handler that addresses an item by key (get-one, update,
    delete, sub-entity list): when the lookup of the key is made and fails,
    the authorization predicate is invoked exactly once, with no item, for
    the handler's action; if it denies the response is 401 (never 404), if it
    grants or no predicate is configured the response is 404. *)
Theorem keyed_lookup_failure_hides_existence :
  forall (api : Api) (k : Keyed) (c : Ctx),
    In (EFind (Param_id c)) (fst (handle api (keyed_handler k) c)) ->
    Find api (Param_id c) = None ->
    validator_calls (fst (handle api (keyed_handler k) c))
      = match Validator api with
        | None => []
        | Some _ => [(keyed_action k, [])]
        end /\
    snd (handle api (keyed_handler k) c)
      = sendStatus (if denies api c (keyed_action k) [] then 401 else 404).
Proof.
  intros api k c Hin Hfind.
  destruct k; cbn in *; unfold denies;
    [ | destruct (Body_parsed c) as [d|]; [ | cbn in Hin; intuition discriminate] | | ];
    unfold getOne, mutateOne, deleteOne, getSubEntity, find, bodyParser, denied in *;
    cbn in *; rewrite Hfind; cbn;
    destruct (Validator api) as [v|]; cbn; try (split; reflexivity);
    destruct (v c _ []); cbn; split; reflexivity.
Qed.

(** C2. For every handler that addresses an item by key, when the lookup of
    the key is made and succeeds, the authorization predicate is invoked with
    the found item (and only then); if it denies, the response is 401 and no
    effect of the operation is performed; if it approves (or no predicate is
    configured), the handler proceeds to the operation's effect. *)
Theorem keyed_lookup_success_checks_item :
  forall (api : Api) (k : Keyed) (c : Ctx) (item : T),
    In (EFind (Param_id c)) (fst (handle api (keyed_handler k) c)) ->
    Find api (Param_id c) = Some item ->
    validator_calls (fst (handle api (keyed_handler k) c))
      = match Validator api with
        | None => []
        | Some _ => [(keyed_action k, [item])]
        end /\
    (if denies api c (keyed_action k) [item]
     then snd (handle api (keyed_handler k) c) = sendStatus 401 /\
          filter is_effect (fst (handle api (keyed_handler k) c)) = []
     else effect_reached api k c item
            (fst (handle api (keyed_handler k) c))
            (snd (handle api (keyed_handler k) c))).
Proof.
  intros api k c item Hin Hfind.
  destruct k; cbn in *; unfold denies;
    [ | destruct (Body_parsed c) as [d|] eqn:Hb; [ | cbn in Hin; intuition discriminate] | | ];
    unfold getOne, mutateOne, deleteOne, getSubEntity, find, bodyParser, denied,
      call_mutate, call_delete in *;
    cbn in *; rewrite Hfind; cbn;
    destruct (Validator api) as [v|]; cbn;
    try destruct (v c _ [item]); cbn;
    repeat match goal with
    | |- context [match ?o with Some _ => _ | None => _ end] =>
        lazymatch o with
        | option_map _ _ => destruct o as [[? [?|]]|]
        end
    end; cbn;
    (split; [reflexivity | ]);
    first [ split; reflexivity
          | reflexivity
          | (exists d; split; [reflexivity | cbn; tauto])
          | cbn; tauto
          | (split; [cbn; tauto | reflexivity]) ].
Qed.

Lemma append_eqb_cancel (p a b : string) :
  String.eqb (p ++ a) (p ++ b) = String.eqb a b.
Proof. induction p as [|ch p IH]; cbn; [reflexivity|]. now rewrite Ascii.eqb_refl. Qed.

Lemma sub_route_paths_app (l1 l2 : list (@Route T Any)) :
  sub_route_paths (app l1 l2) = app (sub_route_paths l1) (sub_route_paths l2).
Proof.
  induction l1 as [|r l1 IH]; cbn; [reflexivity|].
  destruct (RHandler r); cbn; rewrite ?IH; reflexivity.
Qed.

Lemma existsb_sub_routes_get (l : list (@SubEntity T Any)) (g rel : string) m :
  m <> MGet ->
  existsb (fun r => Method_eqb (RMethod r) m && String.eqb (RPath r) (g ++ rel))
    (map (fun s => mkRoute MGet (g ++ ("/:id/" ++ SubPath s)) (HSub (Get s))) l) = false.
Proof.
  intros Hm. apply not_true_iff_false. intros H.
  apply existsb_exists in H as [r [Hin Hr]].
  apply in_map_iff in Hin as [s [<- _]].
  destruct m; cbn in Hr; congruence.
Qed.

Lemma sub_route_paths_map (l : list (@SubEntity T Any)) (g : string) :
  sub_route_paths (map (fun s => mkRoute MGet (g ++ ("/:id/" ++ SubPath s)) (HSub (Get s))) l)
  = map (fun s => g ++ ("/:id/" ++ SubPath s)) l.
Proof. induction l as [|s l IH]; [reflexivity|]. cbn [map sub_route_paths RHandler RPath]. now rewrite IH. Qed.

(** C3. Route exposure is capability-driven: list-all (GET /), paged list
    (GET /page/:id) and get-one (GET /:id) are always registered, and exactly
    one GET route per declared sub-entity, in declaration order; create
    (POST /) and update (PUT /:id) are registered iff [Mutate] is non-nil;
    search (POST /filter) iff [Search] is non-nil; delete (DELETE /:id) iff
    [Delete] is non-nil. *)
Theorem route_exposure_capability_driven :
  forall api : Api,
    has_route api MGet "/" = true /\
    has_route api MGet "/page/:id" = true /\
    has_route api MGet "/:id" = true /\
    sub_route_paths (RegisterAPI api)
      = map (fun s => ("/" ++ Path api) ++ ("/:id/" ++ SubPath s)) (SubEntities api) /\
    has_route api MPost "/" = non_nil (Mutate api) /\
    has_route api MPut "/:id" = non_nil (Mutate api) /\
    has_route api MPost "/filter" = non_nil (Search api) /\
    has_route api MDelete "/:id" = non_nil (Delete api).
Proof.
  intros api.
  unfold has_route, RegisterAPI; cbv beta zeta.
  generalize ("/" ++ Path api) as g; intros g.
  rewrite !existsb_app, !sub_route_paths_app, sub_route_paths_map.
  rewrite !(existsb_sub_routes_get _ g _ MPost), !(existsb_sub_routes_get _ g _ MPut),
    !(existsb_sub_routes_get _ g _ MDelete) by discriminate.
  cbn [existsb RMethod RPath Method_eqb andb].
  rewrite !append_eqb_cancel; cbn [String.eqb Ascii.eqb Bool.eqb andb].
  repeat split;
    destruct (Mutate api), (Search api), (Delete api); cbn;
    rewrite ?append_eqb_cancel; cbn; rewrite ?orb_true_r, ?app_nil_r; try reflexivity.
Qed.

(** C4 (as the code does it). On create and update a body that cannot be
    decoded into [D] yields 400 with zero invocations of the authorization
    predicate. Search runs its aggregate authorization check first: the
    predicate is invoked once (when configured); if it denies the response is
    401, otherwise a malformed body yields 400. *)
Theorem malformed_body_responses :
  forall (api : Api) (c : Ctx),
    Body_parsed c = None ->
    (snd (createOne api c) = sendStatus 400 /\
     validator_calls (fst (createOne api c)) = []) /\
    (snd (mutateOne api c) = sendStatus 400 /\
     validator_calls (fst (mutateOne api c)) = []) /\
    (validator_calls (fst (search api c))
       = match Validator api with
         | None => []
         | Some _ => [(ActionGetAll, [])]
         end /\
     snd (search api c) = sendStatus (if denies api c ActionGetAll [] then 401 else 400)).
Proof.
  intros api c Hb.
  unfold createOne, mutateOne, search, bodyParser, denied, denies; cbn.
  rewrite Hb; cbn.
  destruct (Validator api) as [v|]; cbn; [destruct (v c ActionGetAll [])|]; cbn;
    repeat split.
Qed.

(** What a 200 response of each handler carries. *)
Definition success_body (api : Api) (h : @Handler T Any) (c : Ctx)
    (b : @Body T D Any Page) : Prop :=
  match h with
  | HGetAll => b = BJsonDtos (map (Dto api) (FindAll api tt))
  | HSearch => exists f filter, Search api = Some f /\ Body_parsed c = Some filter /\
                 b = BJsonDtos (map (Dto api) (f filter))
  | HGetOne => exists item, Find api (Param_id c) = Some item /\ b = BJsonDto (Dto api item)
  | HCreate => exists f d item, Create api = Some f /\ Body_parsed c = Some d /\
                 f d = (item, None) /\ b = BJsonDto (Dto api item)
  | HMutate => exists f d item0 item, Mutate api = Some f /\ Body_parsed c = Some d /\
                 Find api (Param_id c) = Some item0 /\ f item0 d = (item, None) /\
                 b = BJsonDto (Dto api item)
  | HDelete => b = BText "deleted"
  | HSub g => exists item, Find api (Param_id c) = Some item /\ b = BJsonAnys (g item)
  | HGetAllPage => b = BJsonPage (FindAllPage api (fst (ParseInt (Param_id c))))
  end.

(** C5 (as the code does it). Every 200 response of get-one, create and
    update carries [Dto] of exactly the item returned by [Find], [Create] or
    [Mutate]; list-all and search carry the [Dto] image of each result, in
    order. The exceptions: the paged list sends the [Page[T]] of
    [FindAllPage] unconverted, the sub-entity route the getter's raw list,
    and delete the literal text "deleted". *)
Theorem success_bodies :
  forall (api : Api) (h : @Handler T Any) (c : Ctx) (b : @Body T D Any Page),
    snd (handle api h c) = Respond (mkResponse 200 b) ->
    success_body api h c b.
Proof.
  intros api h c b Hok.
  destruct h; cbn in *;
    unfold getAll, getAllPage, search, createOne, mutateOne, deleteOne, getSubEntity,
      getOne, find, bodyParser, denied, call_search, call_create, call_mutate,
      call_delete, sendStatus, sendJSON, sendString in *; cbn in *;
    destruct (ParseInt (Param_id c)) as [i e] eqn:Hp; cbn in *;
    destruct (Validator api) as [v|]; cbn in *;
    repeat match goal with
    | H : context [if ?x then _ else _] |- _ => destruct x eqn:?; cbn in H
    | H : context [match Body_parsed c with _ => _ end] |- _ =>
        destruct (Body_parsed c) as [?|] eqn:?; cbn in H
    | H : context [match Find api ?k with _ => _ end] |- _ =>
        destruct (Find api k) as [?|] eqn:?; cbn in H
    | H : context [match option_map _ ?o with _ => _ end] |- _ =>
        destruct o as [?|] eqn:?; cbn in H
    | H : context [match ?p with (_, _) => _ end] |- _ =>
        lazymatch type of p with
        | (_ * option error)%type => destruct p as [? [?|]] eqn:?; cbn in H
        end
    end;
    try discriminate;
    injection Hok as <-;
    rewrite ?Hp; cbn;
    repeat eexists; try eassumption; reflexivity.
Qed.

(** [ParseInt] reports an error only with the values Go documents: 0 for a
    syntax error, the clamped int64 bound for an out-of-range numeral. *)
Lemma ParseInt_error_value (str : string) (i : Z) (e : NumErr) :
  ParseInt str = (i, Some e) ->
  (e = ErrSyntax -> i = 0%Z) /\ (e = ErrRange -> i = (2 ^ 63 - 1)%Z \/ i = (- 2 ^ 63)%Z).
Proof.
  unfold ParseInt.
  destruct (list_ascii_of_string str) as [|c0 rest0].
  - intros H; injection H as <- <-; split; [reflexivity | discriminate].
  - destruct (if Ascii.eqb c0 "+"%char then _ else _) as [neg s].
    destruct (ParseUint s) as [un err].
    destruct err as [[|]|];
      [ intros H; injection H as <- <-; split; [reflexivity | discriminate] | | ];
      destruct (negb neg && _)%bool;
      [ intros H; injection H as <- <-; split; [discriminate | now left]
      | destruct (neg && _)%bool;
        [ intros H; injection H as <- <-; split; [discriminate | now right]
        | discriminate ]
      | intros H; injection H as <- <-; split; [discriminate | now left]
      | destruct (neg && _)%bool;
        [ intros H; injection H as <- <-; split; [discriminate | now right]
        | discriminate ] ].
Qed.

(** C6 (as the code does it). With [Mutate] non-nil and [Create] nil the
    POST create route is registered anyway. A create request with a
    well-formed body that the authorization predicate lets through (or with
    no predicate configured) calls through the nil [Create] and panics; a
    denying predicate stops it with 401 before that call. *)
Theorem create_route_calls_nil_create :
  forall (api : Api) (c : Ctx) (d : D),
    non_nil (Mutate api) = true ->
    Create api = None ->
    Body_parsed c = Some d ->
    In (mkRoute MPost (("/" ++ Path api) ++ "/") HCreate) (RegisterAPI api) /\
    (if denies api c ActionCreate []
     then snd (handle api HCreate c) = sendStatus 401 /\
          ~ In (ECreate d) (fst (handle api HCreate c))
     else In (ECreate d) (fst (handle api HCreate c)) /\
          snd (handle api HCreate c) = nil_func_panic).
Proof.
  intros api c d Hm Hc Hb.
  split.
  - unfold RegisterAPI; cbv beta zeta.
    destruct (Mutate api); [|discriminate]. cbn. auto.
  - cbn. unfold createOne, bodyParser, denied, call_create, denies in *; cbn.
    rewrite Hb; cbn.
    destruct (Validator api) as [v|]; cbn;
      [destruct (v c ActionCreate []); cbn | ]; rewrite ?Hc; cbn;
      split; auto; intros H; repeat destruct H as [H | H]; try discriminate; contradiction.
Qed.

(** C7 (as the code does it). A page token [ParseInt] rejects is not
    answered with 400: the error is ignored and the value [ParseInt]
    returned is used, 0 for a syntax error and the clamped int64 bound for an
    out-of-range numeral. If the predicate denies the response is 401 and
    nothing is fetched; otherwise [FindAllPage] is called with that value and
    its page is sent with status 200. *)
Theorem page_token_parse_failure :
  forall (api : Api) (c : Ctx) (i : Z) (e : NumErr),
    ParseInt (Param_id c) = (i, Some e) ->
    (e = ErrSyntax -> i = 0%Z) /\
    (e = ErrRange -> i = (2 ^ 63 - 1)%Z \/ i = (- 2 ^ 63)%Z) /\
    (if denies api c ActionGetAll []
     then snd (getAllPage api c) = sendStatus 401 /\
          filter is_effect (fst (getAllPage api c)) = []
     else In (EFindAllPage i) (fst (getAllPage api c)) /\
          snd (getAllPage api c) = sendJSON (BJsonPage (FindAllPage api i))).
Proof.
  intros api c i e Hp.
  destruct (ParseInt_error_value _ _ _ Hp) as [Hs Hr].
  split; [exact Hs | split; [exact Hr | ]].
  unfold getAllPage, denied, denies; rewrite Hp; cbn.
  destruct (Validator api) as [v|]; cbn; [destruct (v c ActionGetAll []) |]; cbn; auto.
Qed.

(** C8. The paged-list handler either refuses with 401 (predicate denies,
    nothing fetched) or fetches exactly one page and responds with the
    [Page[T]] returned by [FindAllPage], as it is, without [Dto]. *)
Theorem page_response_unconverted :
  forall (api : Api) (c : Ctx),
    let i := fst (ParseInt (Param_id c)) in
    (denies api c ActionGetAll [] = true /\
     snd (getAllPage api c) = sendStatus 401 /\
     filter is_effect (fst (getAllPage api c)) = []) \/
    (denies api c ActionGetAll [] = false /\
     filter is_effect (fst (getAllPage api c)) = [EFindAllPage i] /\
     snd (getAllPage api c) = sendJSON (BJsonPage (FindAllPage api i))).
Proof.
  intros api c i. subst i.
  unfold getAllPage, denied, denies.
  destruct (ParseInt (Param_id c)) as [j e]; cbn.
  destruct (Validator api) as [v|]; cbn; [destruct (v c ActionGetAll []) |]; cbn; auto.
Qed.

(** C9. A delete of an existing item that the predicate lets through and
    whose [Delete] succeeds responds 200 with the plain text "deleted", not a
    JSON [Dto] of the deleted item. *)
Theorem delete_success_plain_text :
  forall (api : Api) (c : Ctx) (item item' : T) (f : T -> T * option error),
    Find api (Param_id c) = Some item ->
    denies api c ActionDelete [item] = false ->
    Delete api = Some f ->
    f item = (item', None) ->
    snd (deleteOne api c) = Respond (mkResponse 200 (BText "deleted")).
Proof.
  intros api c item item' f Hf Hv Hd Hr.
  unfold deleteOne, find, denied, call_delete; cbn.
  rewrite Hf; cbn. unfold denies in Hv.
  destruct (Validator api) as [v|]; cbn; [rewrite Hv; cbn |]; rewrite Hd; cbn;
    rewrite Hr; reflexivity.
Qed.

(** The create, mutate or delete collaborator is reached and returns an
    error. *)
Definition collaborator_fails (api : Api) (h : @Handler T Any) (c : Ctx) : Prop :=
  match h with
  | HCreate => exists f d item e, Body_parsed c = Some d /\
                 denies api c ActionCreate [] = false /\
                 Create api = Some f /\ f d = (item, Some e)
  | HMutate => exists f d item0 item e, Body_parsed c = Some d /\
                 Find api (Param_id c) = Some item0 /\
                 denies api c ActionMutate [item0] = false /\
                 Mutate api = Some f /\ f item0 d = (item, Some e)
  | HDelete => exists f item0 item e, Find api (Param_id c) = Some item0 /\
                 denies api c ActionDelete [item0] = false /\
                 Delete api = Some f /\ f item0 = (item, Some e)
  | _ => False
  end.

(** C10. Whenever [Create], [Mutate] or [Delete] returns an error the
    response is 500 with the fixed status text: neither the error nor the
    returned item reaches the body. *)
Theorem collaborator_error_500 :
  forall (api : Api) (h : @Handler T Any) (c : Ctx),
    collaborator_fails api h c ->
    snd (handle api h c)
      = Respond (mkResponse 500 (BStatusText "Internal Server Error")).
Proof.
  intros api h c Hf.
  destruct h; cbn in Hf; try contradiction; cbn;
    unfold createOne, mutateOne, deleteOne, bodyParser, find, denied, denies,
      call_create, call_mutate, call_delete in *;
    [ destruct Hf as (f & d & item & e & Hb & Hv & Hc & Hr); rewrite Hb
    | destruct Hf as (f & d & item0 & item & e & Hb & Hfd & Hv & Hc & Hr); rewrite Hb; cbn; rewrite Hfd
    | destruct Hf as (f & item0 & item & e & Hfd & Hv & Hc & Hr); rewrite Hfd ]; cbn;
    (destruct (Validator api) as [v|]; cbn; [rewrite Hv; cbn |]);
    rewrite Hc; cbn; rewrite Hr; reflexivity.
Qed.

End Properties.

(** ** Further properties of the handlers and of route registration *)

Section Handler_invariants.

Context {T D Any : Type} {Page : Type -> Type}.

Local Abbreviation Api := (@Api T D Any Page).
Local Abbreviation Ctx := (@Ctx D).
Local Abbreviation Event := (@Event T D).

(** The action tag each handler passes to the authorization predicate. *)
Definition handler_action (h : @Handler T Any) : Action :=
  match h with
  | HGetAll | HGetAllPage | HSearch => ActionGetAll
  | HGetOne | HSub _ => ActionGetOne
  | HCreate => ActionCreate
  | HMutate => ActionMutate
  | HDelete => ActionDelete
  end.

(** The keys of the [Find] calls of a run. *)
Fixpoint find_keys (tr : list Event) : list string :=
  match tr with
  | [] => []
  | EFind k :: rest => k :: find_keys rest
  | _ :: rest => find_keys rest
  end.

(** Runs every handler to its end, case by case on the [Api]'s functions
    and the request. *)
Ltac run_all api c :=
  unfold handle, getAll, getAllPage, search, getOne, createOne, mutateOne,
    deleteOne, getSubEntity, find, bodyParser, denied, call_search, call_create,
    call_mutate, call_delete, denies, sendStatus, sendJSON, sendString,
    nil_func_panic in *;
  destruct (ParseInt (Param_id c));
  destruct (Validator api) as [v|], (Body_parsed c) as [bd|],
    (Find api (Param_id c)) as [it|];
  cbn in *;
  repeat (match goal with
          | |- context [if ?b then _ else _] =>
              lazymatch type of b with bool => destruct b end
          | |- context [option_map _ ?o] => destruct o
          | |- context [match ?p with (_, _) => _ end] =>
              lazymatch type of p with
              | (_ * option error)%type => destruct p as [? [?|]]
              end
          end; cbn in *).

(** Each handler invokes the authorization predicate at most once per
    request, always with its own action tag and with at most one item. *)
Theorem validator_called_at_most_once :
  forall (api : Api) (h : @Handler T Any) (c : Ctx),
    length (validator_calls (fst (handle api h c))) <= 1 /\
    Forall (fun call => fst call = handler_action h /\ length (snd call) <= 1)
      (validator_calls (fst (handle api h c))).
Proof.
  intros api h c; destruct h; run_all api c;
    split; repeat constructor; cbn; lia.
Qed.

(** [Find] is called at most once per request, with the route's [:id]:
    never by list-all, paged list, search or create, and by update only
    after the body has been decoded. *)
Theorem find_calls :
  forall (api : Api) (h : @Handler T Any) (c : Ctx),
    find_keys (fst (handle api h c))
      = match h with
        | HGetAll | HGetAllPage | HSearch | HCreate => []
        | HMutate => match Body_parsed c with Some _ => [Param_id c] | None => [] end
        | HGetOne | HSub _ | HDelete => [Param_id c]
        end.
Proof. intros api h c; destruct h; run_all api c; reflexivity. Qed.

(** Every response is 200, or one of 400, 401, 404, 500 carrying only the
    status text; the only other outcome is the nil-function panic. *)
Theorem response_statuses :
  forall (api : Api) (h : @Handler T Any) (c : Ctx),
    match snd (handle api h c) with
    | Respond r =>
        Status r = 200%Z \/
        (In (Status r) [400; 401; 404; 500]%Z /\
         RespBody r = BStatusText (status_message (Status r)))
    | Panic m => snd (handle api h c) = nil_func_panic
    end.
Proof.
  intros api h c; destruct h; run_all api c;
    first [ left; reflexivity | right; split; [cbn; tauto | reflexivity] | reflexivity ].
Qed.

(** list-all, the paged list and search check the predicate before anything
    else: when it denies, the response is 401, no data is fetched and (for
    search) the body is not even parsed. *)
Theorem aggregate_denial_first :
  forall (api : Api) (c : Ctx) (h : @Handler T Any),
    In h [HGetAll; HGetAllPage; HSearch] ->
    denies api c ActionGetAll [] = true ->
    snd (handle api h c) = sendStatus 401 /\
    fst (handle api h c) = [EValidate ActionGetAll []].
Proof.
  intros api c h Hh Hd.
  destruct Hh as [<- | [<- | [<- | []]]]; unfold denies in Hd; run_all api c;
    try discriminate; split; reflexivity.
Qed.

(** The write calls ([Create], [Mutate], [Delete]) of a run. *)
Fixpoint write_calls (tr : list Event) : list Event :=
  match tr with
  | [] => []
  | (ECreate _ | EMutate _ _ | EDelete _) as e :: rest => e :: write_calls rest
  | _ :: rest => write_calls rest
  end.

(** The write collaborator a handler may call. *)
Definition allowed_write (h : @Handler T Any) (e : Event) : Prop :=
  match h, e with
  | HCreate, ECreate _ | HMutate, EMutate _ _ | HDelete, EDelete _ => True
  | _, _ => False
  end.

(** The read routes (list-all, paged list, search, get-one, sub-entity)
    never call [Create], [Mutate] or [Delete]; create, update and delete
    each call only their own collaborator, at most once per request. *)
Theorem writes_only_by_own_handler :
  forall (api : Api) (h : @Handler T Any) (c : Ctx),
    length (write_calls (fst (handle api h c))) <= 1 /\
    Forall (allowed_write h) (write_calls (fst (handle api h c))).
Proof.
  intros api h c; destruct h; run_all api c;
    split; repeat constructor; cbn; lia.
Qed.

(** A handler panics only by calling a nil optional function. *)
Lemma panic_only_on_nil (api : Api) (h : @Handler T Any) (c : Ctx) :
  match snd (handle api h c) with
  | Panic _ =>
      (h = HCreate /\ Create api = None) \/ (h = HSearch /\ Search api = None) \/
      (h = HMutate /\ Mutate api = None) \/ (h = HDelete /\ Delete api = None)
  | Respond _ => True
  end.
Proof.
  destruct h; run_all api c;
    repeat match goal with
    | |- context [match ?f with Some _ => _ | None => _ end] =>
        lazymatch f with
        | Create api => destruct (Create api) eqn:?
        | Search api => destruct (Search api) eqn:?
        | Mutate api => destruct (Mutate api) eqn:?
        | Delete api => destruct (Delete api) eqn:?
        end; cbn in *
    end; auto 6.
Qed.

Lemma registered_handler_enabled (api : Api) (r : @Route T Any) :
  In r (RegisterAPI api) ->
  match RHandler r with
  | HCreate | HMutate => Mutate api <> None
  | HSearch => Search api <> None
  | HDelete => Delete api <> None
  | _ => True
  end.
Proof.
  unfold RegisterAPI; cbv beta zeta.
  intros Hin; repeat rewrite in_app_iff in Hin.
  destruct Hin as [Hin | [Hin | [Hin | [Hin | [Hin | [Hin | Hin]]]]]].
  - destruct Hin as [<- | [<- | []]]; exact I.
  - destruct (Mutate api); [|contradiction]. destruct Hin as [<- | []]; discriminate.
  - destruct (Search api); [|contradiction]. destruct Hin as [<- | []]; discriminate.
  - apply in_map_iff in Hin as [sub [<- _]]; exact I.
  - destruct Hin as [<- | []]; exact I.
  - destruct (Mutate api); [|contradiction]. destruct Hin as [<- | []]; discriminate.
  - destruct (Delete api); [|contradiction]. destruct Hin as [<- | []]; discriminate.
Qed.

(** Of the optional functions ([Search], [Mutate], [Create], [Delete]),
    the only one a route registered by [RegisterAPI] can call while nil is
    [Create], on the POST create route of an [Api] with [Mutate] set. The
    required functions ([Find], [FindAll], [FindAllPage], [Dto], the
    sub-entity getters) are present in this model, as the spec requires; a
    nil one of those would panic in Go as well. *)
Theorem registered_route_panics_only_on_nil_create :
  forall (api : Api) (r : @Route T Any) (c : Ctx) (m : string),
    In r (RegisterAPI api) ->
    snd (handle api (RHandler r) c) = Panic m ->
    RHandler r = HCreate /\ Create api = None.
Proof.
  intros api r c m Hin Hp.
  pose proof (registered_handler_enabled api r Hin) as He.
  pose proof (panic_only_on_nil api (RHandler r) c) as Hn.
  rewrite Hp in Hn.
  destruct Hn as [H | [[Hh H] | [[Hh H] | [Hh H]]]]; [exact H | ..];
    rewrite Hh in He; contradiction.
Qed.

(** The sub-entity routes are registered before the get-one route: the
    route list is a prefix without sub-entity routes, the sub-entity routes
    in declaration order, GET /:id, and a suffix without sub-entity routes. *)
Theorem sub_routes_before_get_one :
  forall api : Api,
    exists pre post,
      RegisterAPI api
        = app pre
            (app (map (fun s => mkRoute MGet (("/" ++ Path api) ++ ("/:id/" ++ SubPath s))
                                  (HSub (Get s))) (SubEntities api))
                 (mkRoute MGet (("/" ++ Path api) ++ "/:id") HGetOne :: post)) /\
      sub_route_paths pre = [] /\ sub_route_paths post = [].
Proof.
  intros api. unfold RegisterAPI; cbv beta zeta.
  set (g := "/" ++ Path api).
  exists (app [mkRoute MGet (g ++ "/") HGetAll; mkRoute MGet (g ++ "/page/:id") HGetAllPage]
            (app (if Mutate api then [mkRoute MPost (g ++ "/") HCreate] else [])
                 (if Search api then [mkRoute MPost (g ++ "/filter") HSearch] else []))).
  exists (app (if Mutate api then [mkRoute MPut (g ++ "/:id") HMutate] else [])
              (if Delete api then [mkRoute MDelete (g ++ "/:id") HDelete] else [])).
  split; [ | split].
  - rewrite <- !app_assoc. reflexivity.
  - rewrite !sub_route_paths_app. destruct (Mutate api), (Search api); reflexivity.
  - rewrite !sub_route_paths_app. destruct (Mutate api), (Delete api); reflexivity.
Qed.

End Handler_invariants.

(** ** Page tokens: what [strconv.ParseInt] hands to [FindAllPage] *)

Lemma parseUint_loop_range (n : Z) (s : list ascii) (v : Z) (e : option NumErr) :
  (0 <= n <= maxUint64)%Z -> parseUint_loop n s = (v, e) -> (0 <= v <= maxUint64)%Z.
Proof.
  revert n. induction s as [|ch s IH]; intros n Hn H; cbn in H.
  - injection H as <- <-; exact Hn.
  - repeat (match type of H with
            | context [if ?b then _ else _] =>
                lazymatch type of b with bool => destruct b eqn:? end
            end; cbn in H);
      try (injection H as <- <-; unfold maxUint64; lia);
      refine (IH _ _ H);
      match goal with
      | Hb : ((_ <? _) || (_ >? _))%Z = false |- _ =>
          apply orb_false_iff in Hb as [_ Hb]; rewrite Z.gtb_ltb, Z.ltb_ge in Hb
      end;
      (split; [apply Z.mod_pos_bound; lia | assumption]).
Qed.

Lemma ParseInt_range (str : string) :
  (- 2 ^ 63 <= fst (ParseInt str) <= 2 ^ 63 - 1)%Z.
Proof.
  unfold ParseInt.
  destruct (list_ascii_of_string str) as [|c0 rest0]; cbn; [lia|].
  destruct (if Ascii.eqb c0 "+"%char then _ else _) as [neg s].
  destruct (ParseUint s) as [un err] eqn:Hu.
  assert (Hun : (0 <= un)%Z).
  { unfold ParseUint in Hu. destruct s as [|ch s].
    - injection Hu as <- _; lia.
    - apply parseUint_loop_range in Hu; [lia | unfold maxUint64; lia]. }
  destruct err as [[|]|]; cbn; [lia | | ];
    destruct neg; cbn;
    repeat match goal with
    | |- context [if ?b then _ else _] =>
        lazymatch type of b with bool => destruct b eqn:? end
    end; cbn; try lia;
    match goal with
    | H : (_ >? _)%Z = false |- _ => rewrite Z.gtb_ltb, Z.ltb_ge in H
    | H : (_ >=? _)%Z = false |- _ => rewrite Z.geb_leb, Z.leb_gt in H
    end; lia.
Qed.

(** A decimal digit as the character Go reads. *)
Definition digit_char (d : Z) : ascii := ascii_of_nat (Z.to_nat (48 + d)).

Definition numeral (ds : list Z) : string := string_of_list_ascii (map digit_char ds).

Definition digits_value (ds : list Z) : Z := fold_left (fun a d => a * 10 + d)%Z ds 0%Z.

Definition is_digit (d : Z) : Prop := (0 <= d <= 9)%Z.

Lemma fold_digits_ge (ds : list Z) (n : Z) :
  Forall is_digit ds -> (0 <= n)%Z -> (n <= fold_left (fun a d => a * 10 + d)%Z ds n)%Z.
Proof.
  revert n; induction ds as [|d ds IH]; intros n Hds Hn; cbn; [lia|].
  inversion Hds as [|? ? Hd Hds']; subst; unfold is_digit in Hd.
  specialize (IH (n * 10 + d)%Z Hds' ltac:(lia)). lia.
Qed.

Lemma digit_char_value (d : Z) :
  is_digit d -> Z.of_nat (nat_of_ascii (digit_char d)) = (48 + d)%Z.
Proof.
  intros Hd; unfold digit_char, is_digit in *.
  rewrite nat_ascii_embedding by lia. lia.
Qed.

Lemma parseUint_loop_digits (ds : list Z) (n : Z) :
  Forall is_digit ds -> (0 <= n)%Z ->
  (fold_left (fun a d => a * 10 + d)%Z ds n <= maxUint64)%Z ->
  parseUint_loop n (map digit_char ds) = (fold_left (fun a d => a * 10 + d)%Z ds n, None).
Proof.
  revert n; induction ds as [|d ds IH]; intros n Hds Hn Hmax; cbn; [reflexivity|].
  inversion Hds as [|? ? Hd Hds']; subst.
  pose proof (fold_digits_ge ds (n * 10 + d)%Z Hds') as Hge.
  cbn in Hmax. unfold is_digit in Hd. specialize (Hge ltac:(lia)).
  assert (Hmx : maxUint64 = 18446744073709551615%Z) by reflexivity.
  assert (Hct : cutoff10 = 1844674407370955162%Z) by reflexivity.
  rewrite (digit_char_value d Hd).
  replace ((48 <=? 48 + d) && (48 + d <=? 57))%Z with true
    by (symmetry; apply andb_true_iff; split; apply Z.leb_le; lia).
  replace (48 + d - 48)%Z with d by lia.
  replace (d >=? 10)%Z with false by (symmetry; rewrite Z.geb_leb; apply Z.leb_gt; lia).
  replace (n >=? 1844674407370955162)%Z with false
    by (symmetry; rewrite Z.geb_leb; apply Z.leb_gt; lia).
  rewrite Z.mod_small by lia.
  replace ((n * 10 + d <? n * 10) || (n * 10 + d >? 18446744073709551615))%Z with false
    by (symmetry; apply orb_false_iff; split; [apply Z.ltb_ge | rewrite Z.gtb_ltb; apply Z.ltb_ge]; lia).
  apply IH; [exact Hds' | lia | exact Hmax].
Qed.

Lemma ParseInt_numeral (neg : bool) (ds : list Z) :
  ds <> [] -> Forall is_digit ds ->
  (if neg then digits_value ds <= 2 ^ 63 else digits_value ds < 2 ^ 63)%Z ->
  ParseInt ((if neg then "-" else "") ++ numeral ds)
    = ((if neg then - digits_value ds else digits_value ds)%Z, None).
Proof.
  intros Hne Hds Hv.
  destruct ds as [|d0 ds0]; [contradiction|].
  assert (Hd0 : is_digit d0) by (inversion Hds; assumption).
  assert (Hplus : Ascii.eqb (digit_char d0) "+"%char = false /\
                  Ascii.eqb (digit_char d0) "-"%char = false).
  { unfold is_digit in Hd0.
    assert (d0 = 0 \/ d0 = 1 \/ d0 = 2 \/ d0 = 3 \/ d0 = 4 \/ d0 = 5 \/ d0 = 6 \/
            d0 = 7 \/ d0 = 8 \/ d0 = 9)%Z as Hc by lia.
    repeat destruct Hc as [-> | Hc]; [..| subst]; split; reflexivity. }
  assert (Hloop : ParseUint (map digit_char (d0 :: ds0)) = (digits_value (d0 :: ds0), None)).
  { unfold ParseUint, digits_value. cbn [map].
    apply (parseUint_loop_digits (d0 :: ds0) 0 Hds ltac:(lia)).
    unfold digits_value, maxUint64 in *; destruct neg; lia. }
  unfold ParseInt, numeral.
  destruct neg; cbn [String.append].
  - change (String "-" (string_of_list_ascii (map digit_char (d0 :: ds0))))
      with (string_of_list_ascii ("-"%char :: map digit_char (d0 :: ds0))).
    rewrite list_ascii_of_string_of_list_ascii. cbn [Ascii.eqb Bool.eqb andb].
    rewrite Hloop. cbn.
    change (2 ^ 63)%Z with 9223372036854775808%Z in Hv. unfold digits_value in Hv.
    match goal with |- context [if ?b then _ else _] => replace b with false end;
      [reflexivity | symmetry; rewrite Z.gtb_ltb; apply Z.ltb_ge; exact Hv].
  - rewrite list_ascii_of_string_of_list_ascii. cbn [map].
    destruct Hplus as [Hp Hm]. rewrite Hp, Hm.
    rewrite <- (map_cons digit_char d0 ds0), Hloop. cbn.
    change (2 ^ 63)%Z with 9223372036854775808%Z in Hv. unfold digits_value in Hv.
    match goal with |- context [if ?b then _ else _] => replace b with false end;
      [reflexivity | symmetry; rewrite Z.geb_leb; apply Z.leb_gt; exact Hv].
Qed.

Section Page_tokens.

Context {T D Any : Type} {Page : Type -> Type}.

Local Abbreviation Api := (@Api T D Any Page).
Local Abbreviation Ctx := (@Ctx D).

(** The paged list hands [FindAllPage] an int64 whatever the token: the
    value [ParseInt] returned, between -2^63 and 2^63-1. *)
Theorem page_token_in_int64 :
  forall (api : Api) (c : Ctx) (j : Z),
    In (EFindAllPage j) (fst (getAllPage api c)) ->
    j = fst (ParseInt (Param_id c)) /\ (- 2 ^ 63 <= j <= 2 ^ 63 - 1)%Z.
Proof.
  intros api c j Hin.
  pose proof (ParseInt_range (Param_id c)) as Hr.
  unfold getAllPage, denied in Hin.
  destruct (ParseInt (Param_id c)) as [i e]; cbn in *.
  destruct (Validator api) as [v|]; cbn in Hin;
    [destruct (negb (v c ActionGetAll [])); cbn in Hin | ];
    intuition congruence.
Qed.

(** A well-formed decimal token (optionally negative) within int64 is read
    exactly: when the predicate lets the request through, [FindAllPage] is
    called once, with the token's value, and its page is the response. *)
Theorem page_token_numeral :
  forall (api : Api) (c : Ctx) (neg : bool) (ds : list Z),
    ds <> [] -> Forall is_digit ds ->
    (if neg then digits_value ds <= 2 ^ 63 else digits_value ds < 2 ^ 63)%Z ->
    Param_id c = ((if neg then "-" else "") ++ numeral ds) ->
    denies api c ActionGetAll [] = false ->
    let v := (if neg then - digits_value ds else digits_value ds)%Z in
    filter is_effect (fst (getAllPage api c)) = [EFindAllPage v] /\
    snd (getAllPage api c) = sendJSON (BJsonPage (FindAllPage api v)).
Proof.
  intros api c neg ds Hne Hds Hv Hid Hd v.
  unfold getAllPage, denied, denies in *.
  rewrite Hid, (ParseInt_numeral neg ds Hne Hds Hv).
  destruct (Validator api) as [f|]; cbn; [rewrite Hd; cbn | ]; split; reflexivity.
Qed.

End Page_tokens.

(** ** A concrete resource: entities and DTOs are [nat], pages are lists *)

Definition ex_find (k : string) : option nat :=
  if String.eqb k "7" then Some 7 else None.

Definition ex_api (v : option (@Ctx nat -> Action -> list nat -> bool))
    (create : option (nat -> nat * option error))
    (del : option (nat -> nat * option error)) : @Api nat nat nat list :=
  mkApi "res" ex_find (fun _ => [7]) (fun _ => [7; 8]) (Some (fun d => [d]))
    (Some (fun t d => (t + d, None))) create del
    [mkSubEntity "kids" (fun t => [t; t])] (fun t => t * 10) v.

Definition deny_all : option (@Ctx nat -> Action -> list nat -> bool) :=
  Some (fun _ _ _ => false).

Definition ex_ok : option (nat -> nat * option error) := Some (fun t => (t, None)).

Definition ex_fail : option (nat -> nat * option error) := Some (fun t => (t, Some "disk full")).

Example ex_register :
  map (fun r => (RMethod r, RPath r)) (RegisterAPI (ex_api None None None))
  = [(MGet, "/res/"); (MGet, "/res/page/:id"); (MPost, "/res/"); (MPost, "/res/filter");
     (MGet, "/res/:id/kids"); (MGet, "/res/:id"); (MPut, "/res/:id")].
Proof. reflexivity. Qed.

Example ex_get_one : getOne (ex_api None None None) (mkCtx "7" None)
  = ([EFind "7"], sendJSON (BJsonDto 70)).
Proof. reflexivity. Qed.

Lemma keyed_lookup_failure_witness :
  validator_calls (fst (handle (ex_api deny_all None ex_ok) (keyed_handler KDelete) (mkCtx "8" None)))
    = [(ActionDelete, [])] /\
  snd (handle (ex_api deny_all None ex_ok) (keyed_handler KDelete) (mkCtx "8" None))
    = sendStatus 401.
Proof.
  refine (keyed_lookup_failure_hides_existence (ex_api deny_all None ex_ok) KDelete
            (mkCtx "8" None) _ _); vm_compute; auto.
Defined.

Lemma keyed_lookup_success_witness :
  validator_calls (fst (handle (ex_api deny_all None None) (keyed_handler KMutate) (mkCtx "7" (Some 3))))
    = [(ActionMutate, [7])] /\
  (snd (handle (ex_api deny_all None None) (keyed_handler KMutate) (mkCtx "7" (Some 3)))
     = sendStatus 401 /\
   filter is_effect (fst (handle (ex_api deny_all None None) (keyed_handler KMutate) (mkCtx "7" (Some 3))))
     = []).
Proof.
  refine (keyed_lookup_success_checks_item (ex_api deny_all None None) KMutate
            (mkCtx "7" (Some 3)) 7 _ _); vm_compute; auto.
Defined.

(** C4: on a malformed body, search consults the predicate before parsing;
    a denying predicate answers 401, not 400. *)
Lemma search_malformed_body_counterexample :
  validator_calls (fst (search (ex_api deny_all None None) (mkCtx "" None)))
    = [(ActionGetAll, [])] /\
  snd (search (ex_api deny_all None None) (mkCtx "" None)) = sendStatus 401 /\
  snd (search (ex_api deny_all None None) (mkCtx "" None)) <> sendStatus 400.
Proof. vm_compute. split; [reflexivity | split; [reflexivity | discriminate]]. Qed.

Lemma malformed_body_witness :
  (snd (createOne (ex_api deny_all ex_ok None) (mkCtx "7" None)) = sendStatus 400 /\
   validator_calls (fst (createOne (ex_api deny_all ex_ok None) (mkCtx "7" None))) = []) /\
  (snd (mutateOne (ex_api deny_all ex_ok None) (mkCtx "7" None)) = sendStatus 400 /\
   validator_calls (fst (mutateOne (ex_api deny_all ex_ok None) (mkCtx "7" None))) = []) /\
  (validator_calls (fst (search (ex_api deny_all ex_ok None) (mkCtx "7" None)))
     = [(ActionGetAll, [])] /\
   snd (search (ex_api deny_all ex_ok None) (mkCtx "7" None)) = sendStatus 401).
Proof.
  refine (malformed_body_responses (ex_api deny_all ex_ok None) (mkCtx "7" None) _).
  reflexivity.
Defined.

(** C5: the paged list sends the raw page of entities, not the [Dto] image
    of its items. *)
Lemma page_not_dto_counterexample :
  snd (handle (ex_api None None None) HGetAllPage (mkCtx "0" None))
    = Respond (mkResponse 200 (BJsonPage [7])) /\
  @BJsonPage nat nat nat list [7] <> BJsonDtos (map (Dto (ex_api None None None)) (FindAllPage (ex_api None None None) 0)).
Proof. split; [reflexivity | discriminate]. Qed.

Lemma success_bodies_witness :
  success_body (ex_api None ex_ok None) HCreate (mkCtx "" (Some 4)) (BJsonDto 40).
Proof.
  apply (success_bodies (ex_api None ex_ok None) HCreate (mkCtx "" (Some 4)) (BJsonDto 40)).
  reflexivity.
Defined.

(** C6: a denying predicate stops a well-formed create before the nil
    [Create] is reached. *)
Lemma nil_create_counterexample :
  In (mkRoute MPost "/res/" HCreate) (RegisterAPI (ex_api deny_all None None)) /\
  Body_parsed (mkCtx "" (Some 4)) = Some 4 /\
  snd (createOne (ex_api deny_all None None) (mkCtx "" (Some 4))) = sendStatus 401 /\
  ~ In (ECreate 4) (fst (createOne (ex_api deny_all None None) (mkCtx "" (Some 4)))).
Proof.
  vm_compute. split; [auto | split; [reflexivity | split; [reflexivity | ]]].
  intros H; repeat destruct H as [H | H]; try discriminate; contradiction.
Qed.

Lemma nil_create_witness :
  In (mkRoute MPost (("/" ++ Path (ex_api deny_all None None)) ++ "/") HCreate)
     (RegisterAPI (ex_api deny_all None None)) /\
  (snd (handle (ex_api deny_all None None) HCreate (mkCtx "" (Some 4))) = sendStatus 401 /\
   ~ In (ECreate 4) (fst (handle (ex_api deny_all None None) HCreate (mkCtx "" (Some 4))))).
Proof.
  exact (create_route_calls_nil_create (ex_api deny_all None None) (mkCtx "" (Some 4)) 4
           eq_refl eq_refl eq_refl).
Defined.

Lemma nil_create_panic_example :
  In (ECreate 4) (fst (handle (ex_api None None None) HCreate (mkCtx "" (Some 4)))) /\
  snd (handle (ex_api None None None) HCreate (mkCtx "" (Some 4))) = nil_func_panic.
Proof. vm_compute. split; [auto | reflexivity]. Qed.

(** C7: an out-of-range token is not replaced by 0: [FindAllPage] receives
    the clamped bound. *)
Lemma page_token_range_counterexample :
  ParseInt "99999999999999999999" = (9223372036854775807%Z, Some ErrRange) /\
  In (EFindAllPage 9223372036854775807%Z)
     (fst (getAllPage (ex_api None None None) (mkCtx "99999999999999999999" None))) /\
  ~ In (EFindAllPage 0%Z)
     (fst (getAllPage (ex_api None None None) (mkCtx "99999999999999999999" None))).
Proof.
  vm_compute. split; [reflexivity | split; [auto | ]].
  intros H; repeat destruct H as [H | H]; try discriminate; contradiction.
Qed.

Lemma page_token_parse_failure_witness :
  (ErrSyntax = ErrSyntax -> 0%Z = 0%Z) /\
  (ErrSyntax = ErrRange -> 0%Z = (2 ^ 63 - 1)%Z \/ 0%Z = (- 2 ^ 63)%Z) /\
  (In (EFindAllPage 0%Z) (fst (getAllPage (ex_api None None None) (mkCtx "abc" None))) /\
   snd (getAllPage (ex_api None None None) (mkCtx "abc" None))
     = sendJSON (BJsonPage (FindAllPage (ex_api None None None) 0%Z))).
Proof.
  refine (page_token_parse_failure (ex_api None None None) (mkCtx "abc" None) 0%Z ErrSyntax _).
  reflexivity.
Defined.

Lemma delete_success_witness :
  snd (deleteOne (ex_api None None ex_ok) (mkCtx "7" None))
    = Respond (mkResponse 200 (BText "deleted")).
Proof.
  refine (delete_success_plain_text (ex_api None None ex_ok) (mkCtx "7" None) 7 7
            (fun t => (t, None)) _ _ _ _); reflexivity.
Defined.

Lemma collaborator_error_witness :
  snd (handle (ex_api None None ex_fail) HDelete (mkCtx "7" None))
    = Respond (mkResponse 500 (BStatusText "Internal Server Error")).
Proof.
  refine (collaborator_error_500 (ex_api None None ex_fail) HDelete (mkCtx "7" None) _).
  exists (fun t => (t, Some "disk full")), 7, 7, "disk full".
  repeat split.
Defined.

Lemma aggregate_denial_first_witness :
  snd (handle (ex_api deny_all None None) HSearch (mkCtx "" (Some 1))) = sendStatus 401 /\
  fst (handle (ex_api deny_all None None) HSearch (mkCtx "" (Some 1)))
    = [EValidate ActionGetAll []].
Proof.
  refine (aggregate_denial_first (ex_api deny_all None None) (mkCtx "" (Some 1)) HSearch _ _);
    [cbn; tauto | reflexivity].
Defined.

Lemma registered_route_panic_witness :
  RHandler (@mkRoute nat nat MPost "/res/" HCreate) = HCreate /\
  Create (ex_api None None None) = None.
Proof.
  refine (registered_route_panics_only_on_nil_create (ex_api None None None)
            (mkRoute MPost "/res/" HCreate) (mkCtx "" (Some 4))
            "runtime error: invalid memory address or nil pointer dereference" _ _);
    [vm_compute; tauto | reflexivity].
Defined.

Lemma page_token_in_int64_witness :
  (-9223372036854775808)%Z = fst (ParseInt "-9223372036854775808") /\
  (- 2 ^ 63 <= -9223372036854775808 <= 2 ^ 63 - 1)%Z.
Proof.
  refine (page_token_in_int64 (ex_api None None None) (mkCtx "-9223372036854775808" None)
            (-9223372036854775808)%Z _).
  vm_compute; tauto.
Defined.

Lemma page_token_numeral_witness :
  filter is_effect (fst (getAllPage (ex_api None None None) (mkCtx "-42" None)))
    = [EFindAllPage (-42)%Z] /\
  snd (getAllPage (ex_api None None None) (mkCtx "-42" None))
    = sendJSON (BJsonPage (FindAllPage (ex_api None None None) (-42)%Z)).
Proof.
  refine (page_token_numeral (ex_api None None None) (mkCtx "-42" None) true [4; 2]%Z
            _ _ _ _ _);
    [discriminate | repeat constructor; unfold is_digit; lia | vm_compute; discriminate
    | reflexivity | reflexivity].
Defined.
